(** * CopilotKit: the [useChat] hook and the Unify service adapter

    A shallow embedding of

    - [useChat] (the chat state hook: [runChatCompletion],
      [runChatCompletionAndHandleFunctionCall], [append], [reload], [stop]);
    - [UnifyAdapter] (constructor and [process]).

    The hook body is a [Section] whose variables are the values one render
    binds ([options], [messages], [input], [isLoading]): every closure the
    render creates reads those bindings, while [setMessages] and
    [setIsLoading] write the React state cells of the [World]. *)

From Stdlib Require Import List String ZArith Bool.
Import ListNotations.
Local Open Scope string_scope.
Local Open Scope list_scope.

(** ** Data model *)

Module Types.

(** [Message.role]. *)
Inductive Role : Type := user | assistant | system | function.

Definition Role_eqb (a b : Role) : bool :=
  match a, b with
  | user, user | assistant, assistant | system, system
  | function, function => true
  | _, _ => false
  end.

(** The payload of a function call: name and accumulated arguments. *)
Record FunctionCall : Type := {
  name : string;
  arguments : string
}.

Record Message : Type := {
  id : string;
  createdAt : Z;
  content : string;
  role : Role;
  function_call : option FunctionCall
}.

(** A function definition sent to the API. *)
Record FunctionDeclaration : Type := {
  fn_name : string;
  fn_description : string;
  fn_parameters : string
}.

Definition Headers : Type := list (string * string).

(** [UseChatOptions]; an absent optional field is [None].  The caller's
    [onFunctionCall] handler is opaque to the hook: only its presence
    matters here, its invocation is recorded in the trace. *)
Record UseChatOptions : Type := {
  api : option string;
  chat_id : option string;
  systemMessages : option (list Message);
  onFunctionCall : option unit;
  headers : option Headers;
  body : option (list (string * string));
  functions : option (list FunctionDeclaration)
}.

(** [assistantMessage.content += content] *)
Definition add_content (c : string) (m : Message) : Message :=
  {| id := id m; createdAt := createdAt m; content := (content m ++ c)%string;
     role := role m; function_call := function_call m |}.

(** [assistantMessage.function_call = functionCall] *)
Definition set_function_call (fc : FunctionCall) (m : Message) : Message :=
  {| id := id m; createdAt := createdAt m; content := content m;
     role := role m; function_call := Some fc |}.

(** [a || b] on an optional string: the empty string is falsy. *)
Definition or_string (a : option string) (b : string) : string :=
  match a with
  | Some s => if String.eqb s "" then b else s
  | None => b
  end.

(** [a || []] on an optional array: every array is truthy. *)
Definition or_empty {A : Type} (a : option (list A)) : list A :=
  match a with
  | Some l => l
  | None => []
  end.

End Types.

(** ** The streaming client *)

Module ChatCompletionClient.
Import Types.

(** The four event names the hook subscribes to. *)
Inductive EventName : Type := EvContent | EvEnd | EvError | EvFunction.

Definition EventName_eqb (a b : EventName) : bool :=
  match a, b with
  | EvContent, EvContent | EvEnd, EvEnd | EvError, EvError
  | EvFunction, EvFunction => true
  | _, _ => false
  end.

(** What the client emits while it reads the response stream. *)
Inductive Event : Type :=
| Content (delta : string)
| End
| Error (error : string)
| FunctionEv (functionCall : FunctionCall).

Definition event_name (e : Event) : EventName :=
  match e with
  | Content _ => EvContent
  | End => EvEnd
  | Error _ => EvError
  | FunctionEv _ => EvFunction
  end.

(** The argument of [client.fetch]. *)
Record FetchParams : Type := {
  fp_messages : list Message;
  fp_functions : option (list FunctionDeclaration);
  fp_headers : option Headers
}.

(** Modelled from the spec: the class [ChatCompletionClient]
    ([../openai/chat-completion-client]) is not among the sources.  The
    spec describes it as an emitter of the lifecycle events [content],
    [function], [end] and [error] to its subscribers, which opens one
    request per [fetch].  The model keeps the event names that have a
    listener attached and the requests issued.  The hook attaches one
    listener per event name and detaches by name only, so [off n] leaves
    no listener for [n]. *)
Record t : Type := {
  url : string;
  listeners : list EventName;
  requests : list FetchParams
}.

Definition new (u : string) : t :=
  {| url := u; listeners := []; requests := [] |}.

Definition on (n : EventName) (c : t) : t :=
  {| url := url c; listeners := listeners c ++ [n];
     requests := requests c |}.

Definition off (n : EventName) (c : t) : t :=
  {| url := url c;
     listeners := filter (fun x => negb (EventName_eqb x n)) (listeners c);
     requests := requests c |}.

Definition fetch (p : FetchParams) (c : t) : t :=
  {| url := url c; listeners := listeners c;
     requests := requests c ++ [p] |}.

(** Is a listener attached for the event name [n]? *)
Definition attached (n : EventName) (c : t) : bool :=
  existsb (EventName_eqb n) (listeners c).

End ChatCompletionClient.

(** ** The chat state hook *)

Module UseChat.
Import Types.
Module Client := ChatCompletionClient.

(** Every call the hook makes on React's setters, on the client, on the
    promise callbacks and on the caller's handler, in program order. *)
Inductive Call : Type :=
| CallSetMessages (l : list Message)
| CallSetIsLoading (b : bool)
| CallNewClient (url : string)
| CallOn (n : Client.EventName)
| CallOff (n : Client.EventName)
| CallFetch (p : Client.FetchParams)
| CallResolve (m : Message)
| CallReject (error : string)
| CallOnFunctionCall (history : list Message) (fc : FunctionCall).

(** The three [useState] cells of the hook, and the calls made so far. *)
Record World : Type := {
  messages_cell : list Message;
  input_cell : string;
  isLoading_cell : bool;
  trace : list Call
}.

Inductive PromiseState : Type :=
| Pending
| Fulfilled (m : Message)
| Rejected (error : string).

(** What the promise executor of [runChatCompletion] allocates and its
    listeners close over: the mutable [assistantMessage] object, the
    client, and the promise being settled. *)
Record Turn : Type := {
  assistantMessage : Message;
  client : Client.t;
  promise : PromiseState
}.

(** How a call of [append], [reload] or [stop] comes back: the async
    function returned at once, a [throw], or the promise of a started
    turn. *)
Inductive Completion : Type :=
| Returned
| Threw (error : string)
| Awaiting (t : Turn).

(** *** State monad over the cells and the turn *)

Definition St : Type := (World * Turn)%type.
Definition M (A : Type) : Type := St -> A * St.

Definition ret {A : Type} (a : A) : M A := fun st => (a, st).
Definition bind {A B : Type} (c : M A) (k : A -> M B) : M B :=
  fun st => let (a, st') := c st in k a st'.
Definition exec {A : Type} (c : M A) (st : St) : St := snd (c st).

Declare Scope hook_scope.
Delimit Scope hook_scope with hook.
Notation "x <- c ;; k" := (bind c (fun x => k))
  (at level 61, c at next level, right associativity) : hook_scope.
Notation "c ;; k" := (bind c (fun _ => k))
  (at level 61, right associativity) : hook_scope.
Local Open Scope hook_scope.

Definition record (c : Call) (w : World) : World :=
  {| messages_cell := messages_cell w; input_cell := input_cell w;
     isLoading_cell := isLoading_cell w; trace := trace w ++ [c] |}.

Definition write_messages (l : list Message) (w : World) : World :=
  record (CallSetMessages l)
    {| messages_cell := l; input_cell := input_cell w;
       isLoading_cell := isLoading_cell w; trace := trace w |}.

Definition write_isLoading (b : bool) (w : World) : World :=
  record (CallSetIsLoading b)
    {| messages_cell := messages_cell w; input_cell := input_cell w;
       isLoading_cell := b; trace := trace w |}.

Definition on_world (f : World -> World) : M unit :=
  fun st => (tt, (f (fst st), snd st)).
Definition on_turn (f : Turn -> Turn) : M unit :=
  fun st => (tt, (fst st, f (snd st))).

Definition setMessages (l : list Message) : M unit :=
  on_world (write_messages l).
Definition setIsLoading (b : bool) : M unit :=
  on_world (write_isLoading b).

Definition get_assistantMessage : M Message :=
  fun st => (assistantMessage (snd st), st).
Definition update_assistantMessage (f : Message -> Message) : M unit :=
  on_turn (fun t => {| assistantMessage := f (assistantMessage t);
                       client := client t; promise := promise t |}).
Definition update_client (f : Client.t -> Client.t) : M unit :=
  on_turn (fun t => {| assistantMessage := assistantMessage t;
                       client := f (client t); promise := promise t |}).

Definition client_on (n : Client.EventName) : M unit :=
  on_world (record (CallOn n)) ;; update_client (Client.on n).
Definition client_off (n : Client.EventName) : M unit :=
  on_world (record (CallOff n)) ;; update_client (Client.off n).
Definition client_fetch (p : Client.FetchParams) : M unit :=
  on_world (record (CallFetch p)) ;; update_client (Client.fetch p).

(** Settling a promise that is already settled does nothing. *)
Definition settle (s : PromiseState) (t : Turn) : Turn :=
  {| assistantMessage := assistantMessage t; client := client t;
     promise := match promise t with Pending => s | p => p end |}.

Definition resolve (m : Message) : M unit :=
  on_world (record (CallResolve m)) ;; on_turn (settle (Fulfilled m)).
Definition reject (error : string) : M unit :=
  on_world (record (CallReject error)) ;; on_turn (settle (Rejected error)).

(** *** One render of [useChat] *)

Section Render.
Variable options : UseChatOptions.
(** The values [useState] hands to this render. *)
Variable messages : list Message.
Variable input : string.
Variable isLoading : bool.

(** [const cleanup = () => { client.off(...) x 4 }] *)
Definition cleanup : M unit :=
  client_off Client.EvContent ;;
  client_off Client.EvEnd ;;
  client_off Client.EvError ;;
  client_off Client.EvFunction.

(** The four listeners of [runChatCompletion], by the event they are
    attached to.  Spreading [{ ...assistantMessage }] copies the object;
    values are immutable here, so the copy is the value itself. *)
Definition listener (e : Client.Event) : M unit :=
  match e with
  | Client.Content content =>
      update_assistantMessage (add_content content) ;;
      a <- get_assistantMessage ;;
      setMessages (messages ++ [a])
  | Client.End =>
      setIsLoading false ;;
      cleanup ;;
      a <- get_assistantMessage ;;
      resolve a
  | Client.Error error =>
      setIsLoading false ;;
      cleanup ;;
      reject error
  | Client.FunctionEv functionCall =>
      update_assistantMessage (set_function_call functionCall) ;;
      a <- get_assistantMessage ;;
      setMessages (messages ++ [a]) ;;
      setIsLoading false ;;
      cleanup ;;
      a' <- get_assistantMessage ;;
      resolve a'
  end.

(** The closure environment at the start of the executor: the fresh
    assistant message ([nanoid()], [new Date()]) and the new client. *)
Definition new_turn (fresh : string) (now : Z) : Turn :=
  {| assistantMessage :=
       {| id := fresh; createdAt := now; content := "";
          role := assistant; function_call := None |};
     client := Client.new (or_string (api options) "/api/copilotkit/openai");
     promise := Pending |}.

(** The body of the promise executor, statement by statement. *)
Definition executor : M unit :=
  setIsLoading true ;;
  a <- get_assistantMessage ;;
  setMessages (messages ++ [a]) ;;
  let messagesWithContext := or_empty (systemMessages options) ++ messages in
  on_world (record (CallNewClient
                      (or_string (api options) "/api/copilotkit/openai"))) ;;
  client_on Client.EvContent ;;
  client_on Client.EvEnd ;;
  client_on Client.EvError ;;
  client_on Client.EvFunction ;;
  client_fetch {| Client.fp_messages := messagesWithContext;
                  Client.fp_functions := functions options;
                  Client.fp_headers := headers options |}.

Definition runChatCompletion (fresh : string) (now : Z) (w : World) : St :=
  exec executor (w, new_turn fresh now).

(** What [runChatCompletionAndHandleFunctionCall] does once the awaited
    promise is fulfilled with [message]. *)
Definition handleFunctionCall (message : Message) (w : World) : World :=
  match function_call message, onFunctionCall options with
  | Some fc, Some _ => record (CallOnFunctionCall messages fc) w
  | _, _ => w
  end.

Definition runChatCompletionAndHandleFunctionCall
    (fresh : string) (now : Z) (w : World) : World * Completion :=
  let st := runChatCompletion fresh now w in
  (fst st, Awaiting (snd st)).

Definition append (message : Message) (fresh : string) (now : Z)
    (w : World) : World * Completion :=
  if isLoading then (w, Returned)
  else
    let w1 := write_messages (messages ++ [message]) w in
    runChatCompletionAndHandleFunctionCall fresh now w1.

(** [messages[messages.length - 1]]; on the empty list JavaScript
    yields [undefined], whose [.role] throws a [TypeError]. *)
Definition reload (fresh : string) (now : Z) (w : World)
    : World * Completion :=
  if isLoading || (List.length messages =? 0)%nat then (w, Returned)
  else
    match nth_error messages (List.length messages - 1) with
    | None => (w, Threw "TypeError")
    | Some lastMessage =>
        let w1 :=
          if Role_eqb (role lastMessage) assistant
          then write_messages (removelast messages) w
          else w in
        runChatCompletionAndHandleFunctionCall fresh now w1
    end.

Definition stop (w : World) : World * Completion :=
  (w, Threw "Not implemented").

(** *** Events of a started turn *)

(** The client calls the listener attached to the event's name, if
    there is one. *)
Definition emit (e : Client.Event) : M unit :=
  fun st =>
    if Client.attached (Client.event_name e) (client (snd st))
    then listener e st
    else (tt, st).

(** One event: the listener runs, and if it fulfilled the promise the
    code after [await runChatCompletion()] runs next. *)
Definition deliver (e : Client.Event) (st : St) : St :=
  let st' := exec (emit e) st in
  match promise (snd st), promise (snd st') with
  | Pending, Fulfilled m => (handleFunctionCall m (fst st'), snd st')
  | _, _ => st'
  end.

Definition run (events : list Client.Event) (st : St) : St :=
  fold_left (fun s e => deliver e s) events st.

(** *** A turn in flight *)

Definition all_listeners : list Client.EventName :=
  [Client.EvContent; Client.EvEnd; Client.EvError; Client.EvFunction].

(** The pending assistant message of a turn, by what it has received. *)
Definition pending_message (fresh : string) (now : Z) (text : string)
    (fc : option FunctionCall) : Message :=
  {| id := fresh; createdAt := now; content := text; role := assistant;
     function_call := fc |}.

(** The turn is in flight with pending message [a]: the four listeners
    are attached, the promise is pending, the flag is up and the cell
    holds the render's messages followed by [a]. *)
Record Streaming (st : St) (a : Message) : Prop := {
  streaming_listeners : Client.listeners (client (snd st)) = all_listeners;
  streaming_promise : promise (snd st) = Pending;
  streaming_message : assistantMessage (snd st) = a;
  streaming_cell : messages_cell (fst st) = messages ++ [a];
  streaming_flag : isLoading_cell (fst st) = true
}.

End Render.

(** *** Concrete histories *)

Definition no_options : UseChatOptions :=
  {| api := None; chat_id := None; systemMessages := None;
     onFunctionCall := None; headers := None; body := None;
     functions := None |}.

Definition hi : Message :=
  {| id := "u1"; createdAt := 1; content := "hi"; role := user;
     function_call := None |}.

Definition hello : Message :=
  {| id := "a1"; createdAt := 2; content := "Hello"; role := assistant;
     function_call := None |}.

(** The cells as React holds them when [history] is shown and nothing is
    in flight. *)
Definition idle (history : list Message) : World :=
  {| messages_cell := history; input_cell := ""; isLoading_cell := false;
     trace := [] |}.

Definition loading (history : list Message) : World :=
  {| messages_cell := history; input_cell := ""; isLoading_cell := true;
     trace := [] |}.

(** *** Lifecycle of a turn *)

(** The events whose listeners end the turn. *)
Definition terminal (e : Client.Event) : bool :=
  match e with
  | Client.Content _ => false
  | Client.End | Client.Error _ | Client.FunctionEv _ => true
  end.

Definition settled (p : PromiseState) : bool :=
  match p with
  | Pending => false
  | Fulfilled _ | Rejected _ => true
  end.

End UseChat.

(** ** The Unify service adapter *)

Module Unify.

Section Adapter.
(** The message classes live in [graphql/types/converted], outside the
    sources at hand: the role type and the classes other than
    [TextMessage] are left open. *)
Variable MessageRole : Type.
Variable OtherMessage : Type.

Record TextMessage : Type := {
  role : MessageRole;
  content : string
}.

Inductive Message : Type :=
| Text (m : TextMessage)
| Other (o : OtherMessage).

(** [m instanceof TextMessage] *)
Definition instanceof_TextMessage (m : Message) : bool :=
  match m with
  | Text _ => true
  | Other _ => false
  end.

(** [... as TextMessage[]]: a cast for the type checker only; when the
    program runs the array is the one it was given. *)
Definition as_TextMessages (l : list Message) : list Message := l.

(** What reading [role] and [content] off a message of another class
    yields, [None] for [undefined]: those classes are outside the sources
    at hand. *)
Variable other_role : OtherMessage -> option MessageRole.
Variable other_content : OtherMessage -> option string.

(** [m.role] and [m.content], on whatever object [m] is. *)
Definition read_role (m : Message) : option MessageRole :=
  match m with
  | Text t => Some (role t)
  | Other o => other_role o
  end.

Definition read_content (m : Message) : option string :=
  match m with
  | Text t => Some (content t)
  | Other o => other_content o
  end.

Record UnifyAdapterParams : Type := {
  params_apiKey : option string;
  params_model : string
}.

Record UnifyAdapter : Type := {
  apiKey : string;
  model : option string
}.

(** [options?.apiKey] is used when truthy; [options?.model] is
    [undefined] without options. *)
Definition constructor (options : option UnifyAdapterParams) : UnifyAdapter :=
  {| apiKey :=
       match options with
       | Some o => Types.or_string (params_apiKey o) "UNIFY_API_KEY"
       | None => "UNIFY_API_KEY"
       end;
     model := option_map params_model options |}.

Record CopilotRuntimeChatCompletionRequest : Type := {
  messages : list Message;
  threadId : option string
}.

(** One element of the array handed to the provider: the two values
    read off the message, [None] for [undefined]. *)
Record ChatMessageParam : Type := {
  param_role : option MessageRole;
  param_content : option string
}.

(** The argument of [openai.chat.completions.create]. *)
Record CreateParams : Type := {
  create_model : option string;
  create_messages : list ChatMessageParam;
  create_stream : bool
}.

(** A streamed chunk: the [delta.content] of each of its choices. *)
Record Chunk : Type := {
  choices : list (option string)
}.

Inductive RuntimeEvent : Type :=
| TextMessageStart (messageId : string)
| TextMessageContent (content : string)
| TextMessageEnd
| Complete.

(** The [for await] loop: a chunk without choices makes
    [chunk.choices[0].delta] throw, which ends the callback; an absent
    or empty [content] is skipped. *)
Fixpoint forward_chunks (chunks : list Chunk) : list RuntimeEvent * bool :=
  match chunks with
  | [] => ([], true)
  | chunk :: rest =>
      match choices chunk with
      | [] => ([], false)
      | delta :: _ =>
          let (evs, ok) := forward_chunks rest in
          match delta with
          | Some c =>
              if String.eqb c "" then (evs, ok)
              else (TextMessageContent c :: evs, ok)
          | None => (evs, ok)
          end
      end
  end.

Record ProcessOutcome : Type := {
  openai_apiKey : string;
  openai_baseURL : string;
  created : CreateParams;
  emitted : list RuntimeEvent;
  response_threadId : string
}.

(** [process], on the provider's stream [chunks] and the two values
    [randomId()] yields. *)
Definition process (adapter : UnifyAdapter)
    (request : CopilotRuntimeChatCompletionRequest)
    (chunks : list Chunk) (messageId newThreadId : string)
    : ProcessOutcome :=
  let messages' :=
    map (fun m => {| param_role := read_role m;
                     param_content := read_content m |})
        (as_TextMessages (filter instanceof_TextMessage (messages request))) in
  {| openai_apiKey := apiKey adapter;
     openai_baseURL := "https://api.unify.ai/v0/";
     created := {| create_model := model adapter;
                   create_messages := messages';
                   create_stream := true |};
     emitted :=
       TextMessageStart messageId ::
       (let (evs, ok) := forward_chunks chunks in
        if ok then evs ++ [TextMessageEnd; Complete] else evs);
     response_threadId := Types.or_string (threadId request) newThreadId |}.

(** The claim about [process] in its own words: text messages are
    forwarded as their role and content, in order; any other message
    is dropped. *)
Inductive Forwarded : list Message -> list ChatMessageParam -> Prop :=
| Forwarded_nil : Forwarded [] []
| Forwarded_text : forall m rest out,
    Forwarded rest out ->
    Forwarded (Text m :: rest)
              ({| param_role := Some (role m);
                  param_content := Some (content m) |} :: out)
| Forwarded_other : forall o rest out,
    Forwarded rest out ->
    Forwarded (Other o :: rest) out.

(** *** Reading the provider's stream *)

(** Does [chunk.choices[0]] exist? *)
Definition has_choice (c : Chunk) : bool :=
  match choices c with
  | [] => false
  | _ :: _ => true
  end.

(** The text of [chunk.choices[0].delta.content], nothing when absent. *)
Definition first_delta (c : Chunk) : string :=
  match choices c with
  | Some text :: _ => text
  | _ => ""
  end.

(** The text an event carries to the runtime. *)
Definition event_text (e : RuntimeEvent) : string :=
  match e with
  | TextMessageContent text => text
  | _ => ""
  end.

End Adapter.

Arguments Text {MessageRole OtherMessage} m.
Arguments Other {MessageRole OtherMessage} o.
Arguments instanceof_TextMessage {MessageRole OtherMessage} m.
Arguments as_TextMessages {MessageRole OtherMessage} l.
Arguments role {MessageRole} t.
Arguments content {MessageRole} t.
Arguments messages {MessageRole OtherMessage} c.
Arguments threadId {MessageRole OtherMessage} c.
Arguments Build_ChatMessageParam {MessageRole} param_role param_content.
Arguments param_role {MessageRole} c.
Arguments param_content {MessageRole} c.
Arguments create_messages {MessageRole} c.
Arguments created {MessageRole} p.
Arguments emitted {MessageRole} p.
Arguments read_role {MessageRole OtherMessage} other_role m.
Arguments read_content {MessageRole OtherMessage} other_content m.
Arguments process {MessageRole OtherMessage} other_role other_content
  adapter request chunks messageId newThreadId.
Arguments Forwarded {MessageRole OtherMessage} _ _.
Arguments response_threadId {MessageRole} p.

End Unify.

(** * Properties of the hook *)

Module UseChatFacts.
Import Types UseChat.
Module Client := ChatCompletionClient.

(** ** Strings *)

Lemma string_app_nil_r (s : string) : (s ++ "")%string = s.
Proof.
  induction s as [|ch s IH]; simpl; [reflexivity | now rewrite IH].
Qed.

Lemma string_app_assoc (a b c : string) :
  ((a ++ b) ++ c)%string = (a ++ (b ++ c))%string.
Proof.
  induction a as [|ch a IH]; simpl; [reflexivity | now rewrite IH].
Qed.

Lemma concat_cons (d : string) (ds : list string) :
  String.concat "" (d :: ds) = (d ++ String.concat "" ds)%string.
Proof.
  destruct ds as [|d' ds]; simpl; [now rewrite string_app_nil_r | reflexivity].
Qed.

Lemma add_content_pending fresh now text fc d :
  add_content d (pending_message fresh now text fc)
  = pending_message fresh now (text ++ d)%string fc.
Proof. reflexivity. Qed.

Section Turn.
Variable options : UseChatOptions.
Variable messages : list Message.

(** ** Starting a turn *)

Lemma runChatCompletion_world fresh now w :
  fst (runChatCompletion options messages fresh now w)
  = {| messages_cell := messages ++ [pending_message fresh now "" None];
       input_cell := input_cell w;
       isLoading_cell := true;
       trace := trace w ++
         [CallSetIsLoading true;
          CallSetMessages (messages ++ [pending_message fresh now "" None]);
          CallNewClient (or_string (api options) "/api/copilotkit/openai");
          CallOn Client.EvContent; CallOn Client.EvEnd;
          CallOn Client.EvError; CallOn Client.EvFunction;
          CallFetch {| Client.fp_messages :=
                         or_empty (systemMessages options) ++ messages;
                       Client.fp_functions := functions options;
                       Client.fp_headers := headers options |}] |}.
Proof.
  unfold runChatCompletion, exec, executor; cbn.
  unfold record, write_messages, write_isLoading, record; cbn.
  now rewrite <- !app_assoc.
Qed.

Lemma runChatCompletion_turn fresh now w :
  snd (runChatCompletion options messages fresh now w)
  = {| assistantMessage := pending_message fresh now "" None;
       client :=
         {| Client.url := or_string (api options) "/api/copilotkit/openai";
            Client.listeners := all_listeners;
            Client.requests :=
              [{| Client.fp_messages :=
                    or_empty (systemMessages options) ++ messages;
                  Client.fp_functions := functions options;
                  Client.fp_headers := headers options |}] |};
       promise := Pending |}.
Proof. reflexivity. Qed.

Lemma runChatCompletion_streaming fresh now w :
  Streaming messages (runChatCompletion options messages fresh now w)
            (pending_message fresh now "" None).
Proof.
  split; reflexivity.
Qed.

(** ** Content events *)

Lemma deliver_content st a d :
  Streaming messages st a ->
  Streaming messages (deliver options messages (Client.Content d) st) (add_content d a).
Proof.
  destruct st as [w [a' [u ls rs] p]]; intros [Hl Hp Ha Hc Hf].
  simpl in *; subst.
  split; try reflexivity.
  exact Hf.
Qed.

Lemma run_contents deltas : forall st fresh now text fc,
  Streaming messages st (pending_message fresh now text fc) ->
  Streaming messages (run options messages (map Client.Content deltas) st)
            (pending_message fresh now
               (text ++ String.concat "" deltas)%string fc).
Proof.
  induction deltas as [|d ds IH]; intros st fresh now text fc H.
  - simpl. now rewrite string_app_nil_r.
  - rewrite concat_cons, <- string_app_assoc.
    change (run options messages (map Client.Content (d :: ds)) st)
      with (run options messages (map Client.Content ds)
              (deliver options messages (Client.Content d) st)).
    apply IH. rewrite <- add_content_pending.
    now apply deliver_content.
Qed.

Lemma run_app evs1 evs2 st :
  run options messages (evs1 ++ evs2) st
  = run options messages evs2 (run options messages evs1 st).
Proof. unfold UseChat.run. now rewrite fold_left_app. Qed.

Lemma run_started_contents fresh now w deltas :
  Streaming messages (run options messages (map Client.Content deltas) (runChatCompletion options messages fresh now w))
            (pending_message fresh now (String.concat "" deltas) None).
Proof.
  apply (run_contents deltas _ fresh now "" None).
  apply runChatCompletion_streaming.
Qed.

(** ** Terminal events *)

Lemma handleFunctionCall_cells m w :
  messages_cell (handleFunctionCall options messages m w) = messages_cell w
  /\ isLoading_cell (handleFunctionCall options messages m w)
     = isLoading_cell w.
Proof.
  unfold handleFunctionCall.
  destruct (function_call m), (onFunctionCall options); split; reflexivity.
Qed.

Lemma deliver_end st a :
  Streaming messages st a ->
  promise (snd (deliver options messages Client.End st)) = Fulfilled a
  /\ messages_cell (fst (deliver options messages Client.End st))
     = messages ++ [a]
  /\ isLoading_cell (fst (deliver options messages Client.End st)) = false
  /\ Client.listeners (client (snd (deliver options messages Client.End st)))
     = [].
Proof.
  destruct st as [w [a' [u ls rs] p]]; intros [Hl Hp Ha Hc Hf].
  simpl in *; subst.
  unfold deliver, exec, emit; cbn.
  destruct (handleFunctionCall_cells a
              (record (CallResolve a)
                 (record (CallOff Client.EvFunction)
                    (record (CallOff Client.EvError)
                       (record (CallOff Client.EvEnd)
                          (record (CallOff Client.EvContent)
                             (write_isLoading false w))))))) as [Hm Hi].
  rewrite Hm, Hi. cbn. now rewrite Hc.
Qed.

Lemma deliver_error st a err :
  Streaming messages st a ->
  deliver options messages (Client.Error err) st
  = ({| messages_cell := messages ++ [a];
        input_cell := input_cell (fst st);
        isLoading_cell := false;
        trace := trace (fst st) ++
          [CallSetIsLoading false;
           CallOff Client.EvContent; CallOff Client.EvEnd;
           CallOff Client.EvError; CallOff Client.EvFunction;
           CallReject err] |},
     {| assistantMessage := a;
        client := {| Client.url := Client.url (client (snd st));
                     Client.listeners := [];
                     Client.requests := Client.requests (client (snd st)) |};
        promise := Rejected err |}).
Proof.
  destruct st as [w [a' [u ls rs] p]]; intros [Hl Hp Ha Hc Hf].
  simpl in *; subst.
  unfold deliver, exec, emit; cbn.
  unfold record, write_isLoading, record; cbn.
  now rewrite Hc, <- !app_assoc.
Qed.

Lemma deliver_function st a fc :
  Streaming messages st a ->
  promise (snd (deliver options messages (Client.FunctionEv fc) st))
  = Fulfilled (set_function_call fc a)
  /\ messages_cell (fst (deliver options messages (Client.FunctionEv fc) st))
     = messages ++ [set_function_call fc a]
  /\ isLoading_cell (fst (deliver options messages (Client.FunctionEv fc) st))
     = false
  /\ Client.listeners
       (client (snd (deliver options messages (Client.FunctionEv fc) st)))
     = [].
Proof.
  destruct st as [w [a' [u ls rs] p]]; intros [Hl Hp Ha Hc Hf].
  simpl in *; subst.
  unfold deliver, exec, emit; cbn.
  unfold handleFunctionCall; cbn.
  destruct (onFunctionCall options); cbn; repeat split; reflexivity.
Qed.

(** ** After the listeners are detached *)

Lemma deliver_detached e st :
  Client.listeners (client (snd st)) = [] ->
  deliver options messages e st = st.
Proof.
  destruct st as [w [a [u ls rs] p]]; simpl; intros ->.
  unfold deliver, exec, emit.
  destruct e; cbn; destruct p; reflexivity.
Qed.

Lemma run_detached evs st :
  Client.listeners (client (snd st)) = [] ->
  run options messages evs st = st.
Proof.
  induction evs as [|e evs IH]; intros H; [reflexivity |].
  change (run options messages (e :: evs) st)
    with (run options messages evs (deliver options messages e st)).
  rewrite deliver_detached by exact H. now apply IH.
Qed.

(** ** Streamed turns *)

(** C2. For any content events followed by [end], the promise of the
    turn is fulfilled with the assistant message whose content is the
    concatenation of the deltas in emission order, that message is the
    final element of [messages], and [isLoading] is false. *)
Theorem content_then_end fresh now w deltas :
  let st :=
    run options messages (map Client.Content deltas ++ [Client.End])
      (runChatCompletion options messages fresh now w) in
  let m := pending_message fresh now (String.concat "" deltas) None in
  promise (snd st) = Fulfilled m
  /\ messages_cell (fst st) = messages ++ [m]
  /\ (forall d, last (messages_cell (fst st)) d = m)
  /\ isLoading_cell (fst st) = false.
Proof.
  intros st m; subst st.
  rewrite run_app.
  destruct (deliver_end _ _ (run_started_contents fresh now w deltas))
    as (Hp & Hc & Hf & _).
  fold m in Hp, Hc. cbn [UseChat.run fold_left].
  repeat split; try assumption.
  intros d. rewrite Hc. apply last_last.
Qed.

(** C3. A [function] event that arrives before any terminal event
    fulfils the promise at once with the function call attached to the
    pending assistant message, lowers [isLoading], detaches every
    listener, and whatever the client emits afterwards changes
    nothing. *)
Theorem function_event_resolves_turn fresh now w deltas fc rest :
  let st :=
    run options messages
      (map Client.Content deltas ++ [Client.FunctionEv fc])
      (runChatCompletion options messages fresh now w) in
  let m := pending_message fresh now (String.concat "" deltas) (Some fc) in
  promise (snd st) = Fulfilled m
  /\ messages_cell (fst st) = messages ++ [m]
  /\ isLoading_cell (fst st) = false
  /\ Client.listeners (client (snd st)) = []
  /\ run options messages rest st = st.
Proof.
  intros st m; subst st.
  rewrite run_app.
  destruct (deliver_function _ _ fc (run_started_contents fresh now w deltas))
    as (Hp & Hc & Hf & Hl).
  cbn [UseChat.run fold_left].
  repeat split; try assumption.
  now apply run_detached.
Qed.

(** C7. An [error] event during a turn lowers [isLoading], detaches the
    four listeners and then rejects the promise with that error, in
    this order; later events of the turn change nothing. *)
Theorem error_event_rejects_turn fresh now w deltas err rest :
  let st1 :=
    run options messages (map Client.Content deltas)
      (runChatCompletion options messages fresh now w) in
  let st2 := deliver options messages (Client.Error err) st1 in
  promise (snd st2) = Rejected err
  /\ isLoading_cell (fst st2) = false
  /\ Client.listeners (client (snd st2)) = []
  /\ trace (fst st2)
     = trace (fst st1) ++
       [CallSetIsLoading false;
        CallOff Client.EvContent; CallOff Client.EvEnd;
        CallOff Client.EvError; CallOff Client.EvFunction;
        CallReject err]
  /\ run options messages rest st2 = st2.
Proof.
  intros st1 st2; subst st2 st1.
  rewrite (deliver_error _ _ err (run_started_contents fresh now w deltas)).
  cbn [fst snd promise isLoading_cell client trace Client.listeners].
  repeat split.
  now apply run_detached.
Qed.

(** C9. When deltas were received and the turn then ends with an
    [error] event, the partly accumulated assistant message stays the
    last element of [messages]: nothing is rolled back. *)
Theorem error_keeps_partial_message fresh now w d ds err :
  let st :=
    run options messages
      (map Client.Content (d :: ds) ++ [Client.Error err])
      (runChatCompletion options messages fresh now w) in
  let m := pending_message fresh now (String.concat "" (d :: ds)) None in
  messages_cell (fst st) = messages ++ [m]
  /\ (forall dflt, last (messages_cell (fst st)) dflt = m)
  /\ promise (snd st) = Rejected err.
Proof.
  intros st m; subst st.
  rewrite run_app. cbn [UseChat.run fold_left].
  rewrite (deliver_error _ _ err
             (run_started_contents fresh now w (d :: ds))).
  fold m. cbn [fst snd messages_cell promise].
  repeat split.
  intros dflt. apply last_last.
Qed.

End Turn.

(** ** [append], [reload] and [stop] *)

Section Actions.
Variable options : UseChatOptions.
Variable messages : list Message.

(** A turn started by [append] asks the client for the system messages
    followed by the messages of the render, whatever was appended; the
    cell ends up holding the render's messages and the pending
    assistant message. *)
Lemma append_request message fresh now w :
  exists w' t,
    append options messages false message fresh now w = (w', Awaiting t)
    /\ Client.requests (client t)
       = [{| Client.fp_messages :=
               or_empty (systemMessages options) ++ messages;
             Client.fp_functions := functions options;
             Client.fp_headers := headers options |}]
    /\ messages_cell w'
       = messages ++ [pending_message fresh now "" None].
Proof.
  eexists; eexists; split; [reflexivity |].
  split; reflexivity.
Qed.

Lemma last_of_snoc (init : list Message) (lastMessage : Message) :
  nth_error (init ++ [lastMessage]) (List.length (init ++ [lastMessage]) - 1)
  = Some lastMessage.
Proof.
  rewrite length_app; simpl.
  rewrite Nat.add_sub, nth_error_app2 by apply le_n.
  now rewrite Nat.sub_diag.
Qed.

Lemma snoc_not_empty (init : list Message) (lastMessage : Message) :
  (List.length (init ++ [lastMessage]) =? 0)%nat = false.
Proof. rewrite length_app, Nat.add_comm; reflexivity. Qed.

(** A turn started by [reload] likewise asks for the messages of the
    render, their last element included whatever its role is, and
    leaves them all in the cell before the pending message. *)
Lemma reload_request init lastMessage fresh now w :
  exists w' t,
    reload options (init ++ [lastMessage]) false fresh now w
    = (w', Awaiting t)
    /\ Client.requests (client t)
       = [{| Client.fp_messages :=
               or_empty (systemMessages options) ++ init ++ [lastMessage];
             Client.fp_functions := functions options;
             Client.fp_headers := headers options |}]
    /\ messages_cell w'
       = (init ++ [lastMessage]) ++ [pending_message fresh now "" None].
Proof.
  unfold reload.
  rewrite snoc_not_empty, last_of_snoc; cbn [orb].
  eexists; eexists; split; [reflexivity |].
  split; reflexivity.
Qed.

(** The calls [reload] makes: when the last message is the assistant's,
    the setter first gets the list without it; then the turn starts
    from the list of the render. *)
Lemma reload_trace init lastMessage fresh now w :
  trace (fst (reload options (init ++ [lastMessage]) false fresh now w))
  = trace w ++
    (if Role_eqb (role lastMessage) assistant
     then [CallSetMessages init] else []) ++
    [CallSetIsLoading true;
     CallSetMessages
       ((init ++ [lastMessage]) ++ [pending_message fresh now "" None]);
     CallNewClient (or_string (api options) "/api/copilotkit/openai");
     CallOn Client.EvContent; CallOn Client.EvEnd;
     CallOn Client.EvError; CallOn Client.EvFunction;
     CallFetch {| Client.fp_messages :=
                    or_empty (systemMessages options)
                    ++ init ++ [lastMessage];
                  Client.fp_functions := functions options;
                  Client.fp_headers := headers options |}].
Proof.
  unfold reload.
  rewrite snoc_not_empty, last_of_snoc; cbn [orb].
  unfold runChatCompletionAndHandleFunctionCall; cbn [fst].
  rewrite runChatCompletion_world; cbn [trace].
  destruct (Role_eqb (role lastMessage) assistant); cbn [trace app].
  - unfold write_messages, record; cbn [trace].
    rewrite removelast_last, <- app_assoc. reflexivity.
  - reflexivity.
Qed.

(** C4. While [isLoading] is true, [append] returns at once: the cells
    and the trace are what they were, so [messages] and [isLoading]
    are unchanged, nothing was asked of a client and no turn began. *)
Theorem append_while_loading isLoading message fresh now w :
  isLoading = true ->
  append options messages isLoading message fresh now w = (w, Returned).
Proof. intros ->; reflexivity. Qed.

(** C6. With an empty history, or while [isLoading] is true, [reload]
    returns at once: no request, [messages] unchanged, and an
    [isLoading] that was false stays false. *)
Theorem reload_noop isLoading fresh now w :
  isLoading = true \/ messages = [] ->
  reload options messages isLoading fresh now w = (w, Returned)
  /\ (isLoading_cell w = false ->
      isLoading_cell (fst (reload options messages isLoading fresh now w))
      = false).
Proof.
  intros H.
  assert (E : reload options messages isLoading fresh now w = (w, Returned)).
  { unfold reload. destruct H as [-> | ->]; [reflexivity |].
    now rewrite orb_true_r. }
  rewrite E; split; [reflexivity | trivial].
Qed.

End Actions.

Lemma append_while_loading_witness :
  true = true
  /\ append no_options [hi] true hello "a2" 3 (loading [hi])
     = (loading [hi], Returned).
Proof.
  split; [reflexivity |].
  apply (append_while_loading no_options [hi] true hello "a2" 3 (loading [hi])).
  reflexivity.
Defined.

Lemma reload_noop_witness :
  (false = true \/ @nil Message = [])
  /\ reload no_options [] false "a1" 2 (idle []) = (idle [], Returned)
  /\ (isLoading_cell (idle []) = false ->
      isLoading_cell (fst (reload no_options [] false "a1" 2 (idle [])))
      = false).
Proof.
  split; [right; reflexivity |].
  apply (reload_noop no_options [] false "a1" 2 (idle [])).
  right; reflexivity.
Defined.

(** C1 (the code departs from it). On an empty history without system
    messages, [append hi] starts a turn whose request carries no message
    at all, and the cell then holds the pending assistant message alone:
    the appended message is in neither. *)
Theorem append_request_omits_new_message :
  exists w t,
    append no_options [] false hi "a1" 2 (idle []) = (w, Awaiting t)
    /\ Client.requests (client t)
       = [{| Client.fp_messages := [];
             Client.fp_functions := None;
             Client.fp_headers := None |}]
    /\ messages_cell w = [pending_message "a1" 2 "" None]
    /\ ~ In hi (messages_cell w).
Proof.
  eexists; eexists; split; [reflexivity |].
  repeat split.
  cbn. intros [H | []]. discriminate H.
Qed.

(** C5 (the code departs from it). On the history [hi; hello], whose last
    message is the assistant's, [reload] calls the setter with [hi] alone
    and then starts the turn from the list of the render: the request
    carries [hi; hello], and the cell holds [hi; hello] followed by the
    pending message. *)
Theorem reload_request_keeps_last_message :
  exists w t,
    reload no_options [hi; hello] false "a2" 3 (idle [hi; hello])
    = (w, Awaiting t)
    /\ Client.requests (client t)
       = [{| Client.fp_messages := [hi; hello];
             Client.fp_functions := None;
             Client.fp_headers := None |}]
    /\ messages_cell w = [hi; hello; pending_message "a2" 3 "" None]
    /\ trace w
       = [CallSetMessages [hi];
          CallSetIsLoading true;
          CallSetMessages [hi; hello; pending_message "a2" 3 "" None];
          CallNewClient "/api/copilotkit/openai";
          CallOn Client.EvContent; CallOn Client.EvEnd;
          CallOn Client.EvError; CallOn Client.EvFunction;
          CallFetch {| Client.fp_messages := [hi; hello];
                       Client.fp_functions := None;
                       Client.fp_headers := None |}].
Proof.
  eexists; eexists; split; [reflexivity |].
  repeat split.
Qed.

(** C8. [stop] throws on every call, whatever the cells hold; it changes
    neither [messages] nor [isLoading] and calls nothing, the client
    included. *)
Theorem stop_always_throws w :
  snd (stop w) = Threw "Not implemented"
  /\ messages_cell (fst (stop w)) = messages_cell w
  /\ isLoading_cell (fst (stop w)) = isLoading_cell w
  /\ trace (fst (stop w)) = trace w.
Proof. repeat split. Qed.

End UseChatFacts.

(** * Properties of the adapter *)

Module UnifyFacts.
Import Unify.

Section Forwarding.
Context {MessageRole OtherMessage : Type}.
Variable other_role : OtherMessage -> option MessageRole.
Variable other_content : OtherMessage -> option string.

Lemma forwarded_filter_map (l : list (Message MessageRole OtherMessage)) :
  Forwarded l
    (map (fun m => {| param_role := read_role other_role m;
                      param_content := read_content other_content m |})
         (as_TextMessages (filter instanceof_TextMessage l))).
Proof.
  unfold as_TextMessages.
  induction l as [|[m | o] l IH]; cbn [filter instanceof_TextMessage map].
  - constructor.
  - cbn [read_role read_content]. now constructor.
  - now constructor.
Qed.

Lemma Forwarded_functional (l : list (Message MessageRole OtherMessage))
    out1 out2 :
  Forwarded l out1 -> Forwarded l out2 -> out1 = out2.
Proof.
  intros H1; revert out2.
  induction H1 as [| m rest out H IH | o rest out H IH];
    intros out2 H2; inversion H2; subst.
  - reflexivity.
  - f_equal. now apply IH.
  - now apply IH.
Qed.

(** C10. [process] hands the provider exactly the text messages of the
    request, each as its role and content, in their original order;
    every other message is left out. *)
Theorem process_forwards_text_messages
    (adapter : UnifyAdapter)
    (request : CopilotRuntimeChatCompletionRequest MessageRole OtherMessage)
    (chunks : list Chunk) (messageId newThreadId : string) :
  Forwarded (messages request)
    (create_messages
       (created (process other_role other_content
                   adapter request chunks messageId newThreadId)))
  /\ (forall out,
        Forwarded (messages request) out ->
        out = create_messages
                (created
                   (process other_role other_content
                      adapter request chunks messageId newThreadId))).
Proof.
  split.
  - apply forwarded_filter_map.
  - intros out H.
    apply (Forwarded_functional (messages request)); [exact H |].
    apply forwarded_filter_map.
Qed.

End Forwarding.

End UnifyFacts.

(** * Further properties of the hook *)

Module UseChatLifecycle.
Import Types UseChat.
Module Client := ChatCompletionClient.

Section Turn.
Variable options : UseChatOptions.
Variable messages : list Message.

(** ** What no event changes *)

Lemma handleFunctionCall_input m w :
  input_cell (handleFunctionCall options messages m w) = input_cell w.
Proof.
  unfold handleFunctionCall.
  destruct (function_call m), (onFunctionCall options); reflexivity.
Qed.

Lemma deliver_frame e st :
  input_cell (fst (deliver options messages e st)) = input_cell (fst st)
  /\ Client.requests (client (snd (deliver options messages e st)))
     = Client.requests (client (snd st))
  /\ Client.url (client (snd (deliver options messages e st)))
     = Client.url (client (snd st)).
Proof.
  destruct st as [w [a [u ls rs] p]].
  unfold deliver, exec, emit; cbn [snd fst client].
  destruct (Client.attached (Client.event_name e)
              {| Client.url := u; Client.listeners := ls;
                 Client.requests := rs |}).
  - destruct e; cbn -[handleFunctionCall]; destruct p;
      cbn -[handleFunctionCall];
      rewrite ?handleFunctionCall_input; repeat split.
  - cbn. destruct p; repeat split.
Qed.

(** X1. Whatever the client emits, and in whatever order, a turn leaves
    the [input] cell alone and never asks for anything beyond the one
    request it made when it started, on the client of the configured
    address. *)
Theorem events_keep_input_and_request evs fresh now w :
  input_cell (fst (run options messages evs
                     (runChatCompletion options messages fresh now w)))
  = input_cell w
  /\ Client.requests
       (client (snd (run options messages evs
                       (runChatCompletion options messages fresh now w))))
     = [{| Client.fp_messages :=
             or_empty (systemMessages options) ++ messages;
           Client.fp_functions := functions options;
           Client.fp_headers := headers options |}]
  /\ Client.url
       (client (snd (run options messages evs
                       (runChatCompletion options messages fresh now w))))
     = or_string (api options) "/api/copilotkit/openai".
Proof.
  assert (G : forall st,
    input_cell (fst (run options messages evs st)) = input_cell (fst st)
    /\ Client.requests (client (snd (run options messages evs st)))
       = Client.requests (client (snd st))
    /\ Client.url (client (snd (run options messages evs st)))
       = Client.url (client (snd st))).
  { induction evs as [|e evs' IH]; intros st; [repeat split |].
    change (run options messages (e :: evs') st)
      with (run options messages evs' (deliver options messages e st)).
    destruct (IH (deliver options messages e st)) as (H1 & H2 & H3).
    destruct (deliver_frame e st) as (F1 & F2 & F3).
    rewrite H1, H2, H3, F1, F2, F3. repeat split. }
  destruct (G (runChatCompletion options messages fresh now w))
    as (H1 & H2 & H3).
  rewrite H1, H2, H3. repeat split.
Qed.

(** ** What is published *)

Lemma deliver_published fresh now e st :
  (exists text fc,
     assistantMessage (snd st) = pending_message fresh now text fc
     /\ messages_cell (fst st) = messages ++ [assistantMessage (snd st)]) ->
  exists text fc,
    assistantMessage (snd (deliver options messages e st))
    = pending_message fresh now text fc
    /\ messages_cell (fst (deliver options messages e st))
       = messages ++ [assistantMessage (snd (deliver options messages e st))].
Proof.
  destruct st as [w [a [u ls rs] p]]; cbn [fst snd assistantMessage].
  intros (text & fc & Ha & Hc); subst a.
  unfold deliver, exec, emit; cbn [snd fst client].
  destruct (Client.attached (Client.event_name e)
              {| Client.url := u; Client.listeners := ls;
                 Client.requests := rs |}).
  - destruct e as [d | | err | call]; cbn -[handleFunctionCall].
    + exists (text ++ d)%string, fc. destruct p; split; reflexivity.
    + exists text, fc. destruct p; cbn -[handleFunctionCall];
        rewrite ?(proj1 (UseChatFacts.handleFunctionCall_cells
                           options messages _ _));
        split; try reflexivity; exact Hc.
    + exists text, fc. destruct p; split; try reflexivity; exact Hc.
    + exists text, (Some call). destruct p; cbn -[handleFunctionCall];
        rewrite ?(proj1 (UseChatFacts.handleFunctionCall_cells
                           options messages _ _));
        split; reflexivity.
  - exists text, fc. cbn. destruct p; split; try reflexivity; exact Hc.
Qed.

(** X2. Whatever the client emits, and in whatever order, the published
    list is the list of the render followed by exactly one message: the
    assistant message of this turn, with the identifier and date it was
    created with.  No event of a turn reorders, drops or edits the
    messages before it. *)
Theorem published_list_shape evs fresh now w :
  exists text fc,
    messages_cell (fst (run options messages evs
                          (runChatCompletion options messages fresh now w)))
    = messages ++ [pending_message fresh now text fc].
Proof.
  assert (G : forall st,
    (exists text fc,
       assistantMessage (snd st) = pending_message fresh now text fc
       /\ messages_cell (fst st) = messages ++ [assistantMessage (snd st)]) ->
    exists text fc,
      assistantMessage (snd (run options messages evs st))
      = pending_message fresh now text fc
      /\ messages_cell (fst (run options messages evs st))
         = messages ++ [assistantMessage (snd (run options messages evs st))]).
  { induction evs as [|e evs' IH]; intros st H; [exact H |].
    change (run options messages (e :: evs') st)
      with (run options messages evs' (deliver options messages e st)).
    apply IH. now apply deliver_published. }
  destruct (G (runChatCompletion options messages fresh now w))
    as (text & fc & Ha & Hc).
  - exists "", None. split; reflexivity.
  - exists text, fc. now rewrite Hc, Ha.
Qed.

(** ** Loading flag, promise and listeners *)

Lemma deliver_lifecycle e st :
  isLoading_cell (fst st) = negb (settled (promise (snd st)))
  /\ Client.listeners (client (snd st))
     = (if settled (promise (snd st)) then [] else all_listeners) ->
  isLoading_cell (fst (deliver options messages e st))
  = negb (settled (promise (snd (deliver options messages e st))))
  /\ Client.listeners (client (snd (deliver options messages e st)))
     = (if settled (promise (snd (deliver options messages e st)))
        then [] else all_listeners).
Proof.
  destruct st as [w [a [u ls rs] p]]; cbn [fst snd promise client].
  intros [Hf Hl].
  destruct (settled p) eqn:Hp.
  - rewrite UseChatFacts.deliver_detached by exact Hl.
    cbn [fst snd promise client]. rewrite Hp. now split.
  - destruct p; try discriminate Hp.
    cbn [Client.listeners] in Hl; subst ls.
    unfold deliver, exec, emit.
    destruct e; cbn -[handleFunctionCall];
      rewrite ?(proj2 (UseChatFacts.handleFunctionCall_cells
                         options messages _ _));
      split; try reflexivity; exact Hf.
Qed.

(** X3. Whatever the client emits, and in whatever order, [isLoading] is
    true exactly while the promise of the turn is pending, and the four
    listeners are attached exactly that long: once the promise is
    settled, no listener is left on the client. *)
Theorem loading_iff_pending evs fresh now w :
  isLoading_cell (fst (run options messages evs
                         (runChatCompletion options messages fresh now w)))
  = negb (settled
            (promise (snd (run options messages evs
                             (runChatCompletion options messages fresh now w)))))
  /\ Client.listeners
       (client (snd (run options messages evs
                       (runChatCompletion options messages fresh now w))))
     = (if settled
             (promise (snd (run options messages evs
                              (runChatCompletion options messages fresh now w))))
        then [] else all_listeners).
Proof.
  assert (G : forall st,
    isLoading_cell (fst st) = negb (settled (promise (snd st)))
    /\ Client.listeners (client (snd st))
       = (if settled (promise (snd st)) then [] else all_listeners) ->
    isLoading_cell (fst (run options messages evs st))
    = negb (settled (promise (snd (run options messages evs st))))
    /\ Client.listeners (client (snd (run options messages evs st)))
       = (if settled (promise (snd (run options messages evs st)))
          then [] else all_listeners)).
  { induction evs as [|e evs' IH]; intros st H; [exact H |].
    change (run options messages (e :: evs') st)
      with (run options messages evs' (deliver options messages e st)).
    apply IH. now apply deliver_lifecycle. }
  apply G. split; reflexivity.
Qed.

(** X4. The first terminal event decides the turn: after content events
    and one [end], [error] or [function] event, whatever the client emits
    next changes neither the cells nor the promise.  A late [error] after
    [end] does not reject, a late [end] after [error] does not resolve. *)
Theorem first_terminal_event_decides fresh now w deltas e rest :
  terminal e = true ->
  run options messages (map Client.Content deltas ++ e :: rest)
    (runChatCompletion options messages fresh now w)
  = run options messages (map Client.Content deltas ++ [e])
      (runChatCompletion options messages fresh now w).
Proof.
  intros He.
  rewrite !UseChatFacts.run_app.
  change (run options messages (e :: rest) ?st)
    with (run options messages rest (deliver options messages e st)).
  cbn [UseChat.run fold_left].
  apply UseChatFacts.run_detached.
  pose proof (UseChatFacts.run_started_contents
                options messages fresh now w deltas) as S.
  destruct e as [d | | err | call]; try discriminate He.
  - now destruct (UseChatFacts.deliver_end options messages _ _ S)
      as (_ & _ & _ & Hl).
  - now rewrite (UseChatFacts.deliver_error options messages _ _ err S).
  - now destruct (UseChatFacts.deliver_function options messages _ _ call S)
      as (_ & _ & _ & Hl).
Qed.

(** ** The calls of the resolving listeners *)

(** X5. On a [function] event the turn publishes the message with the
    call, lowers [isLoading], detaches the four listeners and resolves,
    in this order; the caller's [onFunctionCall], when there is one, is
    then called once with the messages of the render and the call, and
    nothing is called in its place when there is none. *)
Theorem function_event_calls fresh now w deltas fc :
  trace (fst (run options messages
                (map Client.Content deltas ++ [Client.FunctionEv fc])
                (runChatCompletion options messages fresh now w)))
  = trace (fst (run options messages (map Client.Content deltas)
                  (runChatCompletion options messages fresh now w)))
    ++ [CallSetMessages
          (messages ++
           [pending_message fresh now (String.concat "" deltas) (Some fc)]);
        CallSetIsLoading false;
        CallOff Client.EvContent; CallOff Client.EvEnd;
        CallOff Client.EvError; CallOff Client.EvFunction;
        CallResolve
          (pending_message fresh now (String.concat "" deltas) (Some fc))]
    ++ match onFunctionCall options with
       | Some _ => [CallOnFunctionCall messages fc]
       | None => []
       end.
Proof.
  rewrite UseChatFacts.run_app. cbn [UseChat.run fold_left].
  pose proof (UseChatFacts.run_started_contents
                options messages fresh now w deltas) as S.
  destruct (run options messages (map Client.Content deltas)
              (runChatCompletion options messages fresh now w))
    as [w' [a [u ls rs] p]].
  destruct S as [Hl Hp Ha Hc Hf]; simpl in Hl, Hp, Ha; subst.
  unfold deliver, exec, emit; cbn.
  unfold handleFunctionCall; cbn.
  destruct (onFunctionCall options); cbn;
    unfold record, write_isLoading, write_messages, record; cbn;
    now rewrite <- !app_assoc.
Qed.

(** X6. On [end] after content events the turn lowers [isLoading],
    detaches the four listeners and resolves with the accumulated
    message, in this order, and the caller's [onFunctionCall] is not
    called, whether one is configured or not. *)
Theorem end_event_calls fresh now w deltas :
  trace (fst (run options messages
                (map Client.Content deltas ++ [Client.End])
                (runChatCompletion options messages fresh now w)))
  = trace (fst (run options messages (map Client.Content deltas)
                  (runChatCompletion options messages fresh now w)))
    ++ [CallSetIsLoading false;
        CallOff Client.EvContent; CallOff Client.EvEnd;
        CallOff Client.EvError; CallOff Client.EvFunction;
        CallResolve
          (pending_message fresh now (String.concat "" deltas) None)].
Proof.
  rewrite UseChatFacts.run_app. cbn [UseChat.run fold_left].
  pose proof (UseChatFacts.run_started_contents
                options messages fresh now w deltas) as S.
  destruct (run options messages (map Client.Content deltas)
              (runChatCompletion options messages fresh now w))
    as [w' [a [u ls rs] p]].
  destruct S as [Hl Hp Ha Hc Hf]; simpl in Hl, Hp, Ha; subst.
  unfold deliver, exec, emit; cbn.
  unfold record, write_isLoading, record; cbn.
  now rewrite <- !app_assoc.
Qed.

(** X7. Each content event makes exactly one call: the setter, with the
    list of the render followed by the message so far; until a terminal
    event the flag, the listeners and the promise are not touched. *)
Theorem content_event_calls fresh now w deltas d :
  trace (fst (run options messages (map Client.Content (deltas ++ [d]))
                (runChatCompletion options messages fresh now w)))
  = trace (fst (run options messages (map Client.Content deltas)
                  (runChatCompletion options messages fresh now w)))
    ++ [CallSetMessages
          (messages ++
           [pending_message fresh now
              (String.concat "" deltas ++ d)%string None])].
Proof.
  rewrite map_app, UseChatFacts.run_app. cbn [map UseChat.run fold_left].
  pose proof (UseChatFacts.run_started_contents
                options messages fresh now w deltas) as S.
  destruct (run options messages (map Client.Content deltas)
              (runChatCompletion options messages fresh now w))
    as [w' [a [u ls rs] p]].
  destruct S as [Hl Hp Ha Hc Hf]; simpl in Hl, Hp, Ha; subst.
  reflexivity.
Qed.

End Turn.

(** ** Guards of [reload] and [append] *)

Section Guards.
Variable options : UseChatOptions.

(** X8. When the last message of the history is not the assistant's,
    [reload] from an idle render does just what starting a turn does: no
    call of the setter comes before it, and the turn is requested for the
    whole history. *)
Theorem reload_other_role_starts_turn init lastMessage fresh now w :
  role lastMessage <> assistant ->
  reload options (init ++ [lastMessage]) false fresh now w
  = runChatCompletionAndHandleFunctionCall
      options (init ++ [lastMessage]) fresh now w.
Proof.
  intros Hr. unfold reload.
  rewrite UseChatFacts.snoc_not_empty, UseChatFacts.last_of_snoc; cbn [orb].
  destruct (role lastMessage); try reflexivity.
  now contradiction Hr.
Qed.

(** X9. The guard of [append] reads the [isLoading] of the render, not
    the cell: a second [append] made from the same idle render starts a
    second turn although the first has raised the flag, and the cell then
    holds the messages of the render followed by the pending message of
    the second turn alone. *)
Theorem second_append_from_same_render messages m1 m2 fresh1 now1 fresh2 now2 w :
  exists w1 t1 w2 t2,
    append options messages false m1 fresh1 now1 w = (w1, Awaiting t1)
    /\ isLoading_cell w1 = true
    /\ append options messages false m2 fresh2 now2 w1 = (w2, Awaiting t2)
    /\ messages_cell w2 = messages ++ [pending_message fresh2 now2 "" None]
    /\ Client.requests (client t2) = Client.requests (client t1).
Proof.
  do 4 eexists.
  split; [reflexivity |].
  split; [reflexivity |].
  split; [reflexivity |].
  split; reflexivity.
Qed.

End Guards.

Lemma reload_other_role_starts_turn_witness :
  role hi <> assistant
  /\ reload no_options ([] ++ [hi]) false "a1" 2 (idle [hi])
     = runChatCompletionAndHandleFunctionCall
         no_options ([] ++ [hi]) "a1" 2 (idle [hi]).
Proof.
  split; [discriminate |].
  apply (reload_other_role_starts_turn no_options [] hi "a1" 2 (idle [hi])).
  discriminate.
Defined.

Lemma first_terminal_event_decides_witness :
  terminal Client.End = true
  /\ run no_options [hi]
       (map Client.Content ["He"; "llo"] ++ Client.End :: [Client.Error "late"])
       (runChatCompletion no_options [hi] "a1" 2 (idle [hi]))
     = run no_options [hi] (map Client.Content ["He"; "llo"] ++ [Client.End])
         (runChatCompletion no_options [hi] "a1" 2 (idle [hi])).
Proof.
  split; [reflexivity |].
  apply (first_terminal_event_decides no_options [hi] "a1" 2 (idle [hi])
           ["He"; "llo"] Client.End [Client.Error "late"]).
  reflexivity.
Defined.

End UseChatLifecycle.

(** * Further properties of the adapter *)

Module UnifyStream.
Import Unify.

(** ** The constructor *)

(** X10. Without options, without an [apiKey] or with an empty one, the
    adapter holds the placeholder ["UNIFY_API_KEY"]; a non-empty [apiKey]
    is kept as given; so an adapter never holds an empty API key. *)
Theorem constructor_apiKey_not_empty (options : option UnifyAdapterParams) :
  apiKey (constructor None) = "UNIFY_API_KEY"
  /\ (forall model,
        apiKey (constructor (Some {| params_apiKey := None;
                                     params_model := model |}))
        = "UNIFY_API_KEY")
  /\ (forall model,
        apiKey (constructor (Some {| params_apiKey := Some "";
                                     params_model := model |}))
        = "UNIFY_API_KEY")
  /\ (forall key model,
        key <> "" ->
        apiKey (constructor (Some {| params_apiKey := Some key;
                                     params_model := model |})) = key)
  /\ apiKey (constructor options) <> "".
Proof.
  split; [reflexivity |].
  split; [reflexivity |].
  split; [reflexivity |].
  split.
  - intros key model Hk; cbn.
    apply String.eqb_neq in Hk. now rewrite Hk.
  - destruct options as [[[key |] model] |]; cbn; try discriminate.
    destruct (String.eqb key "") eqn:E; [discriminate |].
    now apply String.eqb_neq.
Qed.

(** ** The events sent to the runtime *)

Lemma forward_chunks_complete (chunks : list Chunk) :
  forallb has_choice chunks = true ->
  snd (forward_chunks chunks) = true.
Proof.
  induction chunks as [|c chunks IH]; [reflexivity |].
  cbn [forallb]; intros H; apply andb_prop in H as [Hc Hr].
  unfold has_choice in Hc. cbn [forward_chunks].
  destruct (choices c) as [|delta rest]; [discriminate |].
  specialize (IH Hr).
  destruct (forward_chunks chunks) as [evs ok]; cbn [snd] in IH; subst ok.
  destruct delta as [text |]; [destruct (String.eqb text "") |]; reflexivity.
Qed.

Lemma forward_chunks_broken (chunks : list Chunk) :
  forallb has_choice chunks = false ->
  snd (forward_chunks chunks) = false.
Proof.
  induction chunks as [|c chunks IH]; [discriminate |].
  cbn [forallb forward_chunks]; unfold has_choice.
  destruct (choices c) as [|delta rest]; [reflexivity |].
  cbn [andb]; intros H; specialize (IH H).
  destruct (forward_chunks chunks) as [evs ok]; cbn [snd] in IH; subst ok.
  destruct delta as [text |]; [destruct (String.eqb text "") |]; reflexivity.
Qed.

Lemma forward_chunks_contents (chunks : list Chunk) :
  Forall (fun e => exists text, e = TextMessageContent text /\ text <> "")
         (fst (forward_chunks chunks)).
Proof.
  induction chunks as [|c chunks IH]; [constructor |].
  cbn [forward_chunks].
  destruct (choices c) as [|delta rest]; [constructor |].
  destruct (forward_chunks chunks) as [evs ok]; cbn [fst] in IH.
  destruct delta as [text |]; [| exact IH].
  destruct (String.eqb text "") eqn:E; [exact IH |].
  cbn [fst]. constructor; [| exact IH].
  exists text. split; [reflexivity | now apply String.eqb_neq].
Qed.

Lemma forward_chunks_text (chunks : list Chunk) :
  forallb has_choice chunks = true ->
  String.concat "" (map event_text (fst (forward_chunks chunks)))
  = String.concat "" (map first_delta chunks).
Proof.
  induction chunks as [|c chunks IH]; [reflexivity |].
  cbn [forallb]; intros H; apply andb_prop in H as [Hc Hr].
  specialize (IH Hr).
  cbn [map]. rewrite UseChatFacts.concat_cons.
  unfold has_choice in Hc. unfold first_delta. cbn [forward_chunks].
  destruct (choices c) as [|delta rest]; [discriminate |].
  destruct (forward_chunks chunks) as [evs ok]; cbn [fst] in IH.
  destruct delta as [text |]; [| exact IH].
  destruct (String.eqb text "") eqn:E.
  - apply String.eqb_eq in E; subst text. exact IH.
  - cbn [fst map event_text]. rewrite UseChatFacts.concat_cons.
    now rewrite IH.
Qed.

Lemma forward_chunks_stops (pre : list Chunk) (bad : Chunk)
    (rest : list Chunk) :
  forallb has_choice pre = true ->
  has_choice bad = false ->
  forward_chunks (pre ++ bad :: rest) = (fst (forward_chunks pre), false).
Proof.
  intros Hpre Hbad.
  induction pre as [|c pre IH].
  - cbn [app forward_chunks fst]. unfold has_choice in Hbad.
    destruct (choices bad); [reflexivity | discriminate Hbad].
  - cbn [forallb] in Hpre; apply andb_prop in Hpre as [Hc Hr].
    specialize (IH Hr). unfold has_choice in Hc.
    cbn [app forward_chunks]. rewrite IH.
    destruct (choices c) as [|delta more]; [discriminate Hc |].
    destruct (forward_chunks pre) as [evs ok]; cbn [fst].
    destruct delta as [text |]; [destruct (String.eqb text "") |];
      reflexivity.
Qed.

Section Process.
Context {MessageRole OtherMessage : Type}.
Variable other_role : OtherMessage -> option MessageRole.
Variable other_content : OtherMessage -> option string.
Variable adapter : UnifyAdapter.
Variable request : CopilotRuntimeChatCompletionRequest MessageRole OtherMessage.

(** X11. When every chunk of the provider has a choice, the runtime gets
    the start event with the message id, then content events only, then
    the end of the message and the completion of the stream; the texts
    of the content events, joined, are the deltas of the chunks, joined:
    skipping the empty and absent deltas loses no text. *)
Theorem process_streams_whole_text chunks messageId newThreadId :
  forallb has_choice chunks = true ->
  exists contents,
    emitted (process other_role other_content
               adapter request chunks messageId newThreadId)
    = TextMessageStart messageId :: contents ++ [TextMessageEnd; Complete]
    /\ Forall (fun e => exists text, e = TextMessageContent text /\ text <> "")
              contents
    /\ String.concat "" (map event_text contents)
       = String.concat "" (map first_delta chunks).
Proof.
  intros H.
  exists (fst (forward_chunks chunks)).
  split; [| split].
  - cbn [process emitted].
    pose proof (forward_chunks_complete chunks H) as Hok.
    destruct (forward_chunks chunks) as [evs ok]; cbn [snd] in Hok; subst ok.
    reflexivity.
  - apply forward_chunks_contents.
  - now apply forward_chunks_text.
Qed.

(** X12. When a chunk of the provider has no choice, reading
    [chunk.choices[0].delta] throws and the callback of [process] stops
    there.  It has sent the start event with the message id and then
    exactly the content events of the chunks before that one, the events
    a stream made of those chunks alone would carry before it is closed;
    nothing of the chunks after it is sent, and neither the end of the
    message nor the completion of the stream. *)
Theorem process_broken_stream_never_completes
    pre bad rest messageId newThreadId :
  forallb has_choice pre = true ->
  has_choice bad = false ->
  exists contents,
    emitted (process other_role other_content
               adapter request (pre ++ bad :: rest) messageId newThreadId)
    = TextMessageStart messageId :: contents
    /\ emitted (process other_role other_content
                  adapter request pre messageId newThreadId)
       = TextMessageStart messageId :: contents ++ [TextMessageEnd; Complete]
    /\ Forall (fun e => exists text, e = TextMessageContent text /\ text <> "")
              contents
    /\ String.concat "" (map event_text contents)
       = String.concat "" (map first_delta pre)
    /\ ~ In TextMessageEnd
           (emitted (process other_role other_content
                       adapter request (pre ++ bad :: rest)
                       messageId newThreadId))
    /\ ~ In Complete
           (emitted (process other_role other_content
                       adapter request (pre ++ bad :: rest)
                       messageId newThreadId)).
Proof.
  intros Hpre Hbad.
  exists (fst (forward_chunks pre)).
  pose proof (forward_chunks_contents pre) as Hc.
  assert (E : emitted (process other_role other_content
                         adapter request (pre ++ bad :: rest)
                         messageId newThreadId)
              = TextMessageStart messageId :: fst (forward_chunks pre)).
  { cbn [process emitted].
    now rewrite (forward_chunks_stops pre bad rest Hpre Hbad). }
  rewrite E.
  split; [reflexivity |].
  split.
  { cbn [process emitted].
    pose proof (forward_chunks_complete pre Hpre) as Hok.
    destruct (forward_chunks pre) as [evs ok]; cbn [snd] in Hok; subst ok.
    reflexivity. }
  split; [exact Hc |].
  split; [now apply forward_chunks_text |].
  rewrite Forall_forall in Hc.
  split; intros [F | F]; try discriminate F;
    destruct (Hc _ F) as (text & Ht & _); discriminate Ht.
Qed.

(** X13. [process] hands the provider at most as many messages as the
    request has, and as many exactly when every message of the request
    is a text message. *)
Theorem process_message_count chunks messageId newThreadId :
  (List.length
     (create_messages
        (created (process other_role other_content
                    adapter request chunks messageId newThreadId)))
   <= List.length (messages request))%nat
  /\ (List.length
        (create_messages
           (created (process other_role other_content
                       adapter request chunks messageId newThreadId)))
      = List.length (messages request)
      <-> forallb instanceof_TextMessage (messages request) = true).
Proof.
  cbn [process created create_messages]. rewrite length_map.
  unfold as_TextMessages.
  induction (messages request) as [|[m | o] l [IHle IHeq]];
    cbn [filter instanceof_TextMessage List.length forallb andb].
  - split; [apply le_n | split; reflexivity].
  - split; [now apply le_n_S |].
    split; intros H.
    + apply IHeq. now injection H.
    + f_equal. now apply IHeq.
  - split; [now apply le_S |].
    split; intros H; [| discriminate H].
    exfalso. rewrite H in IHle. exact (Nat.nle_succ_diag_l _ IHle).
Qed.

End Process.

Lemma process_streams_whole_text_witness :
  forallb has_choice
    [{| choices := [Some "He"] |}; {| choices := [None] |};
     {| choices := [Some ""; Some "x"] |}; {| choices := [Some "llo"] |}]
  = true
  /\ exists contents,
       emitted (process (fun _ : unit => @None string) (fun _ : unit => None)
                  (constructor None)
                  {| messages := [@Text string unit
                                    {| role := "user"; content := "hi" |}];
                     threadId := None |}
                  [{| choices := [Some "He"] |}; {| choices := [None] |};
                   {| choices := [Some ""; Some "x"] |};
                   {| choices := [Some "llo"] |}]
                  "m1" "t1")
       = TextMessageStart "m1" :: contents ++ [TextMessageEnd; Complete]
       /\ Forall (fun e => exists text,
                            e = TextMessageContent text /\ text <> "")
                 contents
       /\ String.concat "" (map event_text contents)
          = String.concat ""
              (map first_delta
                 [{| choices := [Some "He"] |}; {| choices := [None] |};
                  {| choices := [Some ""; Some "x"] |};
                  {| choices := [Some "llo"] |}]).
Proof.
  split; [reflexivity |].
  apply (process_streams_whole_text
           (fun _ : unit => @None string) (fun _ : unit => None)
           (constructor None)
           {| messages := [@Text string unit
                             {| role := "user"; content := "hi" |}];
              threadId := None |}).
  reflexivity.
Defined.

Lemma process_broken_stream_never_completes_witness :
  forallb has_choice [{| choices := [Some "He"] |}] = true
  /\ has_choice {| choices := [] |} = false
  /\ exists contents,
       emitted (process (fun _ : unit => @None string) (fun _ : unit => None)
                  (constructor None)
                  {| messages := @nil (Message string unit);
                     threadId := None |}
                  ([{| choices := [Some "He"] |}]
                   ++ {| choices := [] |} :: [{| choices := [Some "llo"] |}])
                  "m1" "t1")
       = TextMessageStart "m1" :: contents
       /\ emitted (process (fun _ : unit => @None string)
                     (fun _ : unit => None)
                     (constructor None)
                     {| messages := @nil (Message string unit);
                        threadId := None |}
                     [{| choices := [Some "He"] |}] "m1" "t1")
          = TextMessageStart "m1" :: contents ++ [TextMessageEnd; Complete]
       /\ Forall (fun e => exists text,
                            e = TextMessageContent text /\ text <> "")
                 contents
       /\ String.concat "" (map event_text contents)
          = String.concat "" (map first_delta [{| choices := [Some "He"] |}])
       /\ ~ In TextMessageEnd
              (emitted (process (fun _ : unit => @None string)
                          (fun _ : unit => None)
                          (constructor None)
                          {| messages := @nil (Message string unit);
                             threadId := None |}
                          ([{| choices := [Some "He"] |}]
                           ++ {| choices := [] |}
                              :: [{| choices := [Some "llo"] |}])
                          "m1" "t1"))
       /\ ~ In Complete
              (emitted (process (fun _ : unit => @None string)
                          (fun _ : unit => None)
                          (constructor None)
                          {| messages := @nil (Message string unit);
                             threadId := None |}
                          ([{| choices := [Some "He"] |}]
                           ++ {| choices := [] |}
                              :: [{| choices := [Some "llo"] |}])
                          "m1" "t1")).
Proof.
  split; [reflexivity |].
  split; [reflexivity |].
  apply (process_broken_stream_never_completes
           (fun _ : unit => @None string) (fun _ : unit => None)
           (constructor None)
           {| messages := @nil (Message string unit); threadId := None |}
           [{| choices := [Some "He"] |}] {| choices := [] |}
           [{| choices := [Some "llo"] |}] "m1" "t1");
    reflexivity.
Defined.

End UnifyStream.
